(** * The notebook [misc/python.ipynb]: three code cells of Python

    The notebook holds three code cells: one that prints the signature of
    scikit-learn's [cross_validate], one that defines and calls
    [func_public] and [_func_private], and one that defines the class
    [Person] with the read-only property [name].

    The cells are embedded as programs of a state-and-exception monad over
    the interpreter state they act on: the notebook's global namespace,
    the heap of instances, and the text written to standard output.  The
    parts of the Python runtime the cells rely on (name resolution through
    globals and builtins, calls, the attribute protocol with data
    descriptors, [print], [property], [inspect.signature]) are written out
    next to them. *)

From Stdlib Require Import Ascii String.
From stdpp Require Import base strings gmap list.

Local Open Scope string_scope.
Local Open Scope stdpp_scope.
#[local] Set Warnings "-register-all".

(** ** Values *)

Definition loc := positive.

(** Callables implemented by the runtime or the standard library. *)
Inductive native :=
| BPrint        (* builtins.print *)
| BProperty     (* builtins.property *)
| BSignature.   (* inspect.signature *)

(** The code objects of the four [def] statements of the notebook. *)
Inductive code :=
| func_public_code
| _func_private_code
| Person_init_code
| Person_name_code.

Inductive value :=
| VNone
| VStr (s : string)
| VNative (b : native)
| VFunction (c : code)
| VProperty (fget fset : value)        (* [VNone] when absent, as in CPython *)
| VClass (name : string) (namespace : gmap string value)
| VInstance (a : loc)
| VSignature (text : string)           (* an inspect.Signature *)
| VLib (qualname : string).            (* a function of a third-party module *)

Inductive exn :=
| NameError (name : string)
| AttributeError (attr : string)
| TypeError
| ValueError
| ImportError (name : string)          (* covers ModuleNotFoundError *)
| RecursionError
| Unsupported.
(** [Unsupported] is not a Python exception: it marks behaviour of the
    runtime that lies outside the fragment written out here (bound method
    objects, reprs that show memory addresses, attributes of builtin
    types). *)

Inductive result (A : Type) :=
| Ok (a : A)
| Raise (e : exn).
Arguments Ok {A} a.
Arguments Raise {A} e.

(** ** Interpreter state *)

(** An instance: its class and its [__dict__]. *)
Record instance := Instance {
  ob_type : value;
  ob_dict : gmap string value
}.

Record state := State {
  globals : gmap string value;            (* the notebook's namespace *)
  heap : gmap loc instance;
  stdout : string;                        (* everything written so far *)
  calls : list (value * list value)       (* callee and arguments of every call made *)
}.

Definition initial_state : state := State ∅ ∅ "" [].

(** ** The monad *)

Definition M (A : Type) : Type := state -> result A * state.

Definition ret {A} (a : A) : M A := fun s => (Ok a, s).

Definition raise {A} (e : exn) : M A := fun s => (Raise e, s).

Definition bind {A B} (m : M A) (k : A -> M B) : M B :=
  fun s =>
    match m s with
    | (Ok a, s') => k a s'
    | (Raise e, s') => (Raise e, s')
    end.

Notation "'let*' x ':=' m 'in' k" := (bind m (fun x => k))
  (at level 10, x name, m at level 100, k at level 200).

(** ** Names *)

Definition builtins (n : string) : option value :=
  if decide (n = "print") then Some (VNative BPrint)
  else if decide (n = "property") then Some (VNative BProperty)
  else None.

(** LOAD_NAME: the global namespace first, then the builtins. *)
Definition load_name (n : string) : M value :=
  fun s =>
    match globals s !! n with
    | Some v => (Ok v, s)
    | None =>
        match builtins n with
        | Some v => (Ok v, s)
        | None => (Raise (NameError n), s)
        end
    end.

(** STORE_NAME *)
Definition store_name (n : string) (v : value) : M unit :=
  fun s => (Ok tt, State (<[n := v]> (globals s)) (heap s) (stdout s) (calls s)).

(** ** Standard output *)

Definition newline : string := String "010"%char "".

Definition write (t : string) : M unit :=
  fun s => (Ok tt, State (globals s) (heap s) (stdout s +:+ t) (calls s)).

(** [str(v)], where the text does not depend on a memory address. *)
Definition str (v : value) : option string :=
  match v with
  | VNone => Some "None"
  | VStr s => Some s
  | VSignature t => Some t
  | VNative BPrint => Some "<built-in function print>"
  | VNative BProperty => Some "<class 'property'>"
  | VClass n _ => Some ("<class '__main__." +:+ n +:+ "'>")
  | _ => None
  end.

Fixpoint join (sep : string) (l : list string) : string :=
  match l with
  | [] => ""
  | [x] => x
  | x :: rest => x +:+ sep +:+ join sep rest
  end.

Fixpoint strs (l : list value) : option (list string) :=
  match l with
  | [] => Some []
  | v :: rest =>
      match str v, strs rest with
      | Some t, Some ts => Some (t :: ts)
      | _, _ => None
      end
  end.

(** [print] of its positional arguments: the texts separated by one space,
    then a newline. *)
Definition print (args : list value) : M value :=
  match strs args with
  | Some ts => let* _ := write (join " " ts +:+ newline) in ret VNone
  | None => raise Unsupported
  end.

(** [property(fget=None, fset=None)] *)
Definition property (args : list value) : M value :=
  match args with
  | [] => ret (VProperty VNone VNone)
  | [fget] => ret (VProperty fget VNone)
  | [fget; fset] => ret (VProperty fget fset)
  | _ => raise Unsupported
  end.

(** ** Instances and the attribute protocol *)

Definition alloc (cls : value) : M value :=
  fun s =>
    let a := fresh (dom (heap s)) in
    (Ok (VInstance a),
     State (globals s) (<[a := Instance cls ∅]> (heap s)) (stdout s) (calls s)).

Definition type_lookup (cls : value) (attr : string) : option value :=
  match cls with
  | VClass _ ns => ns !! attr
  | _ => None
  end.

Section Attributes.
Variable call : value -> list value -> M value.

(** [object.__getattribute__]: a data descriptor of the class wins over
    the instance dictionary, which wins over other class attributes. *)
Definition getattr (o : value) (attr : string) : M value :=
  match o with
  | VInstance a =>
      fun s =>
        match heap s !! a with
        | None => (Raise Unsupported, s)
        | Some (Instance cls d) =>
            match type_lookup cls attr with
            | Some (VProperty fget _) =>
                match fget with
                | VNone => (Raise (AttributeError attr), s)
                | _ => call fget [o] s
                end
            | ca =>
                match d !! attr with
                | Some v => (Ok v, s)
                | None =>
                    match ca with
                    | Some (VFunction _) | Some (VLib _) => (Raise Unsupported, s)
                    | Some v => (Ok v, s)
                    | None => (Raise (AttributeError attr), s)
                    end
                end
            end
        end
  | VClass _ ns =>
      match ns !! attr with
      | Some v => ret v
      | None => raise (AttributeError attr)
      end
  | _ => raise (AttributeError attr)
  end.

(** [object.__setattr__]: a property of the class intercepts the
    assignment; one without a setter refuses it. *)
Definition setattr (o : value) (attr : string) (v : value) : M unit :=
  match o with
  | VInstance a =>
      fun s =>
        match heap s !! a with
        | None => (Raise Unsupported, s)
        | Some (Instance cls d) =>
            match type_lookup cls attr with
            | Some (VProperty _ fset) =>
                match fset with
                | VNone => (Raise (AttributeError attr), s)
                | _ => (let* _ := call fset [o; v] in ret tt) s
                end
            | _ =>
                (Ok tt,
                 State (globals s) (<[a := Instance cls (<[attr := v]> d)]> (heap s))
                       (stdout s) (calls s))
            end
        end
  | VNone | VStr _ | VNative _ | VSignature _ | VProperty _ _ =>
      raise (AttributeError attr)
  | _ => raise Unsupported
  end.
End Attributes.

(** ** The functions and the class of the notebook

    Each body takes the interpreter's [call] as a parameter: the callee is
    whatever the name resolves to when the body runs. *)

Section Functions.
Variable call : value -> list value -> M value.

(** [def func_public(): print("This is public")] *)
Definition func_public : M value :=
  let* f := load_name "print" in
  let* _ := call f [VStr "This is public"] in
  ret VNone.

(** [def _func_private(): print("This is private")] *)
Definition _func_private : M value :=
  let* f := load_name "print" in
  let* _ := call f [VStr "This is private"] in
  ret VNone.
End Functions.

Module Person.
Section Methods.
Variable call : value -> list value -> M value.

(** [def __init__(self, name): self._name = name] *)
Definition __init__ (self name : value) : M value :=
  let* _ := setattr call self "_name" name in
  ret VNone.

(** [@property def name(self): return self._name] *)
Definition name (self : value) : M value :=
  getattr call self "_name".

(** The class body: it binds [__init__], then [name] to the result of
    applying the decorator to the function. *)
Definition class_body : M (gmap string value) :=
  let ns := <["__init__" := VFunction Person_init_code]> ∅ in
  let* decorator := load_name "property" in
  let* p := call decorator [VFunction Person_name_code] in
  ret (<["name" := p]> ns).
End Methods.
End Person.

(** ** The environment of the kernel

    What is installed next to the interpreter: the third-party modules
    that can be imported, with the names they export, and, for each
    library function, the signature [inspect] derives for it and what
    calling it does. *)

Record environment := Environment {
  site_packages : gmap string (gmap string value);
  lib_signature : string -> option string;
  lib_call : string -> list value -> M value
}.

(** The limit on nested calls ([sys.getrecursionlimit()] of CPython).  Every
    call counts as one level here, calls of natives included. *)
Definition recursion_limit : nat := 1000.

Definition stdlib (m : string) : option (gmap string value) :=
  if decide (m = "inspect") then Some {[ "signature" := VNative BSignature ]}
  else None.

Definition code_signature (c : code) : string :=
  match c with
  | func_public_code | _func_private_code => "()"
  | Person_init_code => "(self, name)"
  | Person_name_code => "(self)"
  end.

Definition log_call (f : value) (args : list value) : M unit :=
  fun s => (Ok tt, State (globals s) (heap s) (stdout s) (calls s ++ [(f, args)])).

Inductive cell := Cell1 | Cell2 | Cell3.

#[global] Instance cell_eq_dec : EqDecision cell.
Proof. solve_decision. Defined.

Inductive person_op := ReadName | PrintName.

(** The class object the class statement of the third cell builds when
    [property] is the builtin. *)
Definition Person_namespace : gmap string value :=
  <["name" := VProperty (VFunction Person_name_code) VNone]>
    (<["__init__" := VFunction Person_init_code]> ∅).

Definition Person_class : value := VClass "Person" Person_namespace.

Section Interpreter.
Variable env : environment.

(** [from m import n] *)
Definition import_from (m n : string) : M unit :=
  let found :=
    match stdlib m with
    | Some ns => Some ns
    | None => site_packages env !! m
    end in
  match found with
  | None => raise (ImportError m)
  | Some ns =>
      match ns !! n with
      | None => raise (ImportError n)
      | Some v => store_name n v
      end
  end.

(** [inspect.signature(obj)]: reads the parameters of a callable; it
    does not call it. *)
Definition signature (args : list value) : M value :=
  match args with
  | [VLib q] =>
      match lib_signature env q with
      | Some t => ret (VSignature t)
      | None => raise ValueError
      end
  | [VFunction c] => ret (VSignature (code_signature c))
  | [VNone] | [VStr _] | [VInstance _] | [VSignature _] | [VProperty _ _] =>
      raise TypeError
  | [] => raise TypeError
  | _ => raise Unsupported
  end.

(** Calling a value, given how nested calls are made.  A class is called
    as [type.__call__] does: a new instance, then [__init__] on it, which
    has to return [None]. *)
Definition invoke (call : value -> list value -> M value)
    (f : value) (args : list value) : M value :=
  match f with
  | VNative BPrint => print args
  | VNative BProperty => property args
  | VNative BSignature => signature args
  | VFunction func_public_code =>
      match args with
      | [] => func_public call
      | _ => raise TypeError
      end
  | VFunction _func_private_code =>
      match args with
      | [] => _func_private call
      | _ => raise TypeError
      end
  | VFunction Person_init_code =>
      match args with
      | [self; name] => Person.__init__ call self name
      | _ => raise TypeError
      end
  | VFunction Person_name_code =>
      match args with
      | [self] => Person.name call self
      | _ => raise TypeError
      end
  | VClass _ ns =>
      let* o := alloc f in
      match ns !! "__init__" with
      | Some (VFunction c) =>
          let* r := call (VFunction c) (o :: args) in
          match r with
          | VNone => ret o
          | _ => raise TypeError
          end
      | Some _ => raise Unsupported
      | None =>
          match args with
          | [] => ret o
          | _ => raise TypeError
          end
      end
  | VLib q => lib_call env q args
  | VInstance a =>
      fun s =>
        match heap s !! a with
        | Some (Instance cls _) =>
            match type_lookup cls "__call__" with
            | None => (Raise TypeError, s)
            | Some _ => (Raise Unsupported, s)
            end
        | None => (Raise Unsupported, s)
        end
  | VNone | VStr _ | VSignature _ | VProperty _ _ => raise TypeError
  end.

(** A call with [depth] levels of nesting left: it is recorded, then
    made. *)
Fixpoint call (depth : nat) : value -> list value -> M value :=
  match depth with
  | O => fun _ _ => raise RecursionError
  | S d => fun f args => let* _ := log_call f args in invoke (call d) f args
  end.

(** *** The three code cells

    A cell yields the value of its last expression statement, which the
    kernel displays unless it is [None]. *)

(** [[
    from sklearn.model_selection import cross_validate
    from inspect import signature

    signature = signature(cross_validate)
    print(signature)
    ]] *)
Definition cell_1 : M value :=
  let* _ := import_from "sklearn.model_selection" "cross_validate" in
  let* _ := import_from "inspect" "signature" in
  let* f := load_name "signature" in
  let* a := load_name "cross_validate" in
  let* r := call recursion_limit f [a] in
  let* _ := store_name "signature" r in
  let* p := load_name "print" in
  let* a := load_name "signature" in
  call recursion_limit p [a].

(** [[
    def func_public(): ...
    def _func_private(): ...

    func_public()
    _func_private()
    ]] *)
Definition cell_2 : M value :=
  let* _ := store_name "func_public" (VFunction func_public_code) in
  let* _ := store_name "_func_private" (VFunction _func_private_code) in
  let* f := load_name "func_public" in
  let* _ := call recursion_limit f [] in
  let* g := load_name "_func_private" in
  call recursion_limit g [].

(** [[
    class Person: ...

    person = Person("Alice")
    print(person.name)
    ]] *)
Definition cell_3 : M value :=
  let* ns := Person.class_body (call recursion_limit) in
  let* _ := store_name "Person" (VClass "Person" ns) in
  let* c := load_name "Person" in
  let* o := call recursion_limit c [VStr "Alice"] in
  let* _ := store_name "person" o in
  let* p := load_name "print" in
  let* o := load_name "person" in
  let* n := getattr (call recursion_limit) o "name" in
  call recursion_limit p [n].

Definition run_cell (c : cell) : M value :=
  match c with
  | Cell1 => cell_1
  | Cell2 => cell_2
  | Cell3 => cell_3
  end.

(** The kernel runs cells one after the other, in any order and any
    number of times; a cell that raises leaves what it did before. *)
Fixpoint run_cells (cs : list cell) (s : state) : state :=
  match cs with
  | [] => s
  | c :: rest => run_cells rest (snd (run_cell c s))
  end.

(** The two things the last line of the third cell does with [person]:
    reading the property, and printing what was read. *)
Definition run_op (p : value) (o : person_op) : M value :=
  match o with
  | ReadName => getattr (call recursion_limit) p "name"
  | PrintName =>
      let* f := load_name "print" in
      let* n := getattr (call recursion_limit) p "name" in
      call recursion_limit f [n]
  end.

Fixpoint run_ops (p : value) (ops : list person_op) (s : state) : state :=
  match ops with
  | [] => s
  | o :: rest => run_ops p rest (snd (run_op p o s))
  end.
End Interpreter.

(** The environment the notebook was run in, as far as its recorded
    output shows it. *)
Definition cross_validate_signature : string :=
  "(estimator, X, y=None, *, groups=None, scoring=None, cv=None, n_jobs=None, verbose=0, fit_params=None, params=None, pre_dispatch='2*n_jobs', return_train_score=False, return_estimator=False, return_indices=False, error_score=nan)".

Definition cross_validate : value := VLib "sklearn.model_selection.cross_validate".

Definition recorded_env : environment :=
  Environment
    {[ "sklearn.model_selection" := {[ "cross_validate" := cross_validate ]} ]}
    (fun q => if decide (q = "sklearn.model_selection.cross_validate")
              then Some cross_validate_signature else None)
    (fun _ _ => raise Unsupported).

(** The state after the third cell has been run once in a new kernel: one
    [Person], at address 1, holding "Alice". *)
Definition alice_state : state := snd (run_cell recorded_env Cell3 initial_state).

(** ** Predicates used in the statements *)

(** No cell has rebound the builtins the cells rely on. *)
Definition unshadowed (s : state) : Prop :=
  globals s !! "print" = None /\ globals s !! "property" = None.

(** The global namespace and the heap are the same in both states. *)
Definition same_store (s s' : state) : Prop :=
  globals s' = globals s /\ heap s' = heap s.

(** The global names a cell binds. *)
Definition binds (c : cell) : gset string :=
  match c with
  | Cell1 => {[ "cross_validate"; "signature" ]}
  | Cell2 => {[ "func_public"; "_func_private" ]}
  | Cell3 => {[ "Person"; "person" ]}
  end.

(** On the names of [w], the namespace holds nothing but what [w] holds. *)
Definition within (w g : gmap string value) : Prop :=
  forall n x v, w !! n = Some x -> g !! n = Some v -> x = v.

(** The functions and classes a cell defines; a callee of a cell's own is
    one of them or a native of the runtime. *)
Definition defines (c : cell) : list value :=
  match c with
  | Cell1 => []
  | Cell2 => [VFunction func_public_code; VFunction _func_private_code]
  | Cell3 => [Person_class; VFunction Person_init_code; VFunction Person_name_code]
  end.

Definition own_callee (c : cell) (f : value) : Prop :=
  (exists b, f = VNative b) \/ f ∈ defines c.

(** A call log in which no third-party function is ever the callee, and a
    third-party function is an argument of [inspect.signature] only. *)
Definition log_ok (cl : list (value * list value)) : Prop :=
  Forall (fun e => (forall q, e.1 <> VLib q) /\
                   (forall q, VLib q ∈ e.2 -> e.1 = VNative BSignature)) cl.

(** The third-party library can be imported and [inspect] can read the
    signature of its [cross_validate]. *)
Definition library_importable (env : environment) : Prop :=
  exists ns q t,
    site_packages env !! "sklearn.model_selection" = Some ns /\
    ns !! "cross_validate" = Some (VLib q) /\
    lib_signature env q = Some t.

(** ** Single statements of the cells

    Statements of the cells taken on their own, as the kernel runs them
    when they are entered in a cell of their own. *)

Section Statements.
Variable env : environment.

(** An expression statement [f(args)] at the top level of a cell, as on
    lines 103 and 104: the name is resolved, then called. *)
Definition call_statement (f : string) (args : list value) : M value :=
  let* g := load_name f in
  call env recursion_limit g args.

(** The last two statements of the first cell on their own. *)
Definition introspect : M value :=
  let* f := load_name "signature" in
  let* a := load_name "cross_validate" in
  let* r := call env recursion_limit f [a] in
  let* _ := store_name "signature" r in
  let* p := load_name "print" in
  let* a := load_name "signature" in
  call env recursion_limit p [a].

(** The last statement of the third cell on its own. *)
Definition print_person_name : M value :=
  let* p := load_name "print" in
  let* o := load_name "person" in
  let* n := getattr (call env recursion_limit) o "name" in
  call env recursion_limit p [n].
End Statements.

(** An environment with no third-party module installed. *)
Definition bare_env : environment :=
  Environment ∅ (fun _ => None) (fun _ _ => raise Unsupported).

(** Where [person] is bound, it is bound to a [Person] that holds "Alice". *)
Definition person_is_alice (s : state) : Prop :=
  exists a, globals s !! "person" = Some (VInstance a) /\
            heap s !! a = Some (Instance Person_class {[ "_name" := VStr "Alice" ]}).

(** * Properties *)

(** ** Stepping through monadic programs *)

Lemma bind_ok {A B} (m : M A) (k : A -> M B) s a s' :
  m s = (Ok a, s') -> bind m k s = k a s'.
Proof. intros H. unfold bind. rewrite H. reflexivity. Qed.

Lemma bind_raise {A B} (m : M A) (k : A -> M B) s e s' :
  m s = (Raise e, s') -> bind m k s = (Raise e, s').
Proof. intros H. unfold bind. rewrite H. reflexivity. Qed.

Lemma bind_assoc {A B C} (m : M A) (f : A -> M B) (g : B -> M C) s :
  bind (bind m f) g s = bind m (fun x => bind (f x) g) s.
Proof. unfold bind. destruct (m s) as [[a|e] s']; reflexivity. Qed.

Lemma bind_load_global {B} n v (k : value -> M B) s :
  globals s !! n = Some v -> bind (load_name n) k s = k v s.
Proof. intros H. unfold bind, load_name. rewrite H. reflexivity. Qed.

Lemma bind_load_builtin {B} n v (k : value -> M B) s :
  globals s !! n = None -> builtins n = Some v -> bind (load_name n) k s = k v s.
Proof. intros H1 H2. unfold bind, load_name. rewrite H1, H2. reflexivity. Qed.

Lemma recursion_limit_eq : recursion_limit = S (S (S (recursion_limit - 3))).
Proof. reflexivity. Qed.

Lemma call_S env d f args :
  call env (S d) f args = (let* _ := log_call f args in invoke env (call env d) f args).
Proof. reflexivity. Qed.

Lemma append_assoc (a b c : string) : (a +:+ b) +:+ c = a +:+ b +:+ c.
Proof.
  induction a as [|x a IH]; [reflexivity|].
  change (String x ((a +:+ b) +:+ c) = String x (a +:+ b +:+ c)).
  by rewrite IH.
Qed.

Lemma append_empty_r (a : string) : a +:+ "" = a.
Proof.
  induction a as [|x a IH]; [reflexivity|].
  change (String x (a +:+ "") = String x a). by rewrite IH.
Qed.

Lemma state_eta s : State (globals s) (heap s) (stdout s) (calls s) = s.
Proof. by destruct s. Qed.

Lemma not_in_pair (n a b : string) : n ∉ ({[ a; b ]} : gset string) <-> n <> a /\ n <> b.
Proof. by rewrite not_elem_of_union, !not_elem_of_singleton. Qed.

(** Run the program as far as it goes without a lookup. *)
Ltac reduce :=
  repeat (progress (
    rewrite ?bind_assoc;
    cbn [bind ret raise store_name log_call write alloc invoke print property strs str join
         globals heap stdout calls fst snd];
    unfold func_public, _func_private, Person.__init__, Person.name, Person.class_body)).

Ltac lookup :=
  cbn [globals heap];
  repeat first [ rewrite lookup_insert_eq | rewrite lookup_insert_ne by done ];
  try reflexivity; try assumption.

Ltac load_global := erewrite bind_load_global by lookup; reduce.

Ltac load_builtin val :=
  rewrite (bind_load_builtin _ val) by (first [reflexivity | lookup]); reduce.

(** Entries of a call log, checked one by one. *)
Ltac log_entry :=
  split;
  [ intros q; cbn; discriminate
  | intros q Hq; cbn in Hq |- *;
    first [ reflexivity
          | exfalso; repeat (apply elem_of_cons in Hq as [Hq|Hq]; [discriminate|]);
            by apply elem_of_nil in Hq ] ].

Ltac log_entries := repeat (apply Forall_cons; split; [log_entry|]); apply Forall_nil_2.

Ltac own_entry :=
  first [ left; eexists; reflexivity
        | right; cbn;
          repeat first [ apply list_elem_of_here | apply list_elem_of_further ] ].

Ltac own_entries := repeat (apply Forall_cons; split; [own_entry|]); apply Forall_nil_2.

(** ** The runtime *)

Lemma print_frame args s :
  same_store s (snd (print args s)).
Proof. unfold print. destruct (strs args); split; reflexivity. Qed.

Lemma signature_pure env args s :
  signature env args s = (fst (signature env args initial_state), s).
Proof.
  destruct args as [|v [|w rest]]; try reflexivity; destruct v; try reflexivity.
  cbn [signature]. destruct (lib_signature env qualname); reflexivity.
Qed.

Lemma signature_value env args x :
  fst (signature env args initial_state) = Ok x -> exists t, x = VSignature t.
Proof.
  destruct args as [|v [|w rest]]; try discriminate; destruct v; try discriminate.
  - cbn. intros [= <-]. eauto.
  - cbn [signature]. destruct (lib_signature env qualname); cbn; [|discriminate].
    intros [= <-]. eauto.
Qed.

Lemma import_inspect_signature env :
  import_from env "inspect" "signature" = store_name "signature" (VNative BSignature).
Proof. reflexivity. Qed.

Lemma import_sklearn env :
  import_from env "sklearn.model_selection" "cross_validate" =
  match site_packages env !! "sklearn.model_selection" with
  | None => raise (ImportError "sklearn.model_selection")
  | Some ns =>
      match ns !! "cross_validate" with
      | None => raise (ImportError "cross_validate")
      | Some v => store_name "cross_validate" v
      end
  end.
Proof. reflexivity. Qed.

Lemma setattr_plain call a cls d attr v s :
  heap s !! a = Some (Instance cls d) ->
  type_lookup cls attr = None ->
  setattr call (VInstance a) attr v s =
  (Ok tt, State (globals s) (<[a := Instance cls (<[attr := v]> d)]> (heap s))
                (stdout s) (calls s)).
Proof. intros H1 H2. unfold setattr. rewrite H1, H2. reflexivity. Qed.

(** ** The class [Person] *)

Lemma Person_lookup_name :
  Person_namespace !! "name" = Some (VProperty (VFunction Person_name_code) VNone).
Proof. reflexivity. Qed.

Lemma Person_lookup_init :
  Person_namespace !! "__init__" = Some (VFunction Person_init_code).
Proof. reflexivity. Qed.

Lemma Person_lookup__name : Person_namespace !! "_name" = None.
Proof. reflexivity. Qed.

Lemma class_body_spec env d s :
  globals s !! "property" = None ->
  Person.class_body (call env (S d)) s =
  (Ok Person_namespace,
   State (globals s) (heap s) (stdout s)
         (calls s ++ [(VNative BProperty, [VFunction Person_name_code])])).
Proof.
  intros H. reduce. load_builtin (VNative BProperty).
  rewrite call_S. reduce. reflexivity.
Qed.

Lemma call_Person env d v s :
  call env (S (S d)) Person_class [v] s =
  (Ok (VInstance (fresh (dom (heap s)))),
   State (globals s)
         (<[fresh (dom (heap s)) := Instance Person_class {[ "_name" := v ]}]> (heap s))
         (stdout s)
         (calls s ++ [(Person_class, [v]);
                      (VFunction Person_init_code, [VInstance (fresh (dom (heap s))); v])])).
Proof.
  rewrite call_S. unfold Person_class at 2. reduce.
  rewrite Person_lookup_init. rewrite call_S. reduce.
  erewrite (bind_ok (setattr _ _ _ _)); cycle 1.
  { apply setattr_plain with (cls := Person_class) (d := ∅).
    - cbn [heap]. apply lookup_insert_eq.
    - reflexivity. }
  reduce. unfold ret. rewrite insert_insert_eq, <- app_assoc. reflexivity.
Qed.

Lemma getattr_property env d a dict v s :
  heap s !! a = Some (Instance Person_class dict) ->
  dict !! "_name" = Some v ->
  getattr (call env (S d)) (VInstance a) "name" s =
  (Ok v, State (globals s) (heap s) (stdout s)
               (calls s ++ [(VFunction Person_name_code, [VInstance a])])).
Proof.
  intros H1 H2. unfold getattr at 1. rewrite H1.
  unfold Person_class, type_lookup. rewrite Person_lookup_name.
  rewrite call_S. reduce.
  unfold getattr. cbn [heap]. rewrite H1.
  unfold Person_class, type_lookup. rewrite Person_lookup__name, H2. reflexivity.
Qed.

Lemma getattr_property_frame env d a dict s :
  heap s !! a = Some (Instance Person_class dict) ->
  same_store s (snd (getattr (call env d) (VInstance a) "name" s)) /\
  stdout (snd (getattr (call env d) (VInstance a) "name" s)) = stdout s.
Proof.
  intros H1. unfold getattr. rewrite H1.
  unfold Person_class, type_lookup. rewrite Person_lookup_name.
  destruct d as [|d]; [by repeat split|].
  rewrite call_S. reduce.
  unfold getattr. cbn [heap]. rewrite H1.
  unfold Person_class, type_lookup. rewrite Person_lookup__name.
  destruct (dict !! "_name"); by repeat split.
Qed.

Lemma getattr_stored call a dict v s :
  heap s !! a = Some (Instance Person_class dict) ->
  dict !! "_name" = Some v ->
  getattr call (VInstance a) "_name" s = (Ok v, s).
Proof.
  intros H1 H2. unfold getattr. rewrite H1.
  unfold Person_class, type_lookup. rewrite Person_lookup__name, H2. reflexivity.
Qed.

Lemma setattr_property call a dict v s :
  heap s !! a = Some (Instance Person_class dict) ->
  setattr call (VInstance a) "name" v s = (Raise (AttributeError "name"), s).
Proof.
  intros H1. unfold setattr. rewrite H1.
  unfold Person_class, type_lookup. rewrite Person_lookup_name. reflexivity.
Qed.

(** ** The two functions *)

Lemma call_func_public env d s :
  globals s !! "print" = None ->
  call env (S (S d)) (VFunction func_public_code) [] s =
  (Ok VNone,
   State (globals s) (heap s) (stdout s +:+ "This is public" +:+ newline)
         (calls s ++ [(VFunction func_public_code, []);
                      (VNative BPrint, [VStr "This is public"])])).
Proof.
  intros H. rewrite call_S. reduce.
  load_builtin (VNative BPrint).
  rewrite call_S. reduce. unfold ret.
  rewrite <- app_assoc. reflexivity.
Qed.

Lemma call_func_private env d s :
  globals s !! "print" = None ->
  call env (S (S d)) (VFunction _func_private_code) [] s =
  (Ok VNone,
   State (globals s) (heap s) (stdout s +:+ "This is private" +:+ newline)
         (calls s ++ [(VFunction _func_private_code, []);
                      (VNative BPrint, [VStr "This is private"])])).
Proof.
  intros H. rewrite call_S. reduce.
  load_builtin (VNative BPrint).
  rewrite call_S. reduce. unfold ret.
  rewrite <- app_assoc. reflexivity.
Qed.

(** ** The cells, run from any state in which the builtins are visible *)

Lemma cell_1_spec env ns q t s :
  site_packages env !! "sklearn.model_selection" = Some ns ->
  ns !! "cross_validate" = Some (VLib q) ->
  lib_signature env q = Some t ->
  globals s !! "print" = None ->
  run_cell env Cell1 s =
  (Ok VNone,
   State (<["signature" := VSignature t]>
            (<["signature" := VNative BSignature]>
               (<["cross_validate" := VLib q]> (globals s))))
         (heap s)
         (stdout s +:+ t +:+ newline)
         (calls s ++ [(VNative BSignature, [VLib q]); (VNative BPrint, [VSignature t])])).
Proof.
  intros Hm Hq Ht Hp. unfold run_cell, cell_1.
  rewrite import_sklearn, import_inspect_signature, Hm, Hq.
  rewrite recursion_limit_eq. generalize (recursion_limit - 3). intros d.
  reduce. load_global. load_global.
  rewrite call_S. reduce. unfold signature. rewrite Ht. reduce.
  load_builtin (VNative BPrint). load_global.
  rewrite call_S. reduce. unfold ret. rewrite <- app_assoc. reflexivity.
Qed.

Lemma cell_2_spec env s :
  globals s !! "print" = None ->
  run_cell env Cell2 s =
  (Ok VNone,
   State (<["_func_private" := VFunction _func_private_code]>
            (<["func_public" := VFunction func_public_code]> (globals s)))
         (heap s)
         (stdout s +:+ ("This is public" +:+ newline) +:+ ("This is private" +:+ newline))
         (calls s ++ [(VFunction func_public_code, []);
                      (VNative BPrint, [VStr "This is public"]);
                      (VFunction _func_private_code, []);
                      (VNative BPrint, [VStr "This is private"])])).
Proof.
  intros H. unfold run_cell, cell_2. rewrite recursion_limit_eq.
  generalize (recursion_limit - 3). intros d.
  reduce. load_global.
  erewrite (bind_ok (call _ _ _ _)) by (apply call_func_public; lookup).
  reduce. load_global.
  rewrite call_func_private by lookup.
  cbn [globals heap stdout calls].
  rewrite append_assoc, <- app_assoc. reflexivity.
Qed.

Lemma cell_3_spec env s :
  unshadowed s ->
  run_cell env Cell3 s =
  (Ok VNone,
   State (<["person" := VInstance (fresh (dom (heap s)))]>
            (<["Person" := Person_class]> (globals s)))
         (<[fresh (dom (heap s)) := Instance Person_class {[ "_name" := VStr "Alice" ]}]>
            (heap s))
         (stdout s +:+ "Alice" +:+ newline)
         (calls s ++ [(VNative BProperty, [VFunction Person_name_code]);
                      (Person_class, [VStr "Alice"]);
                      (VFunction Person_init_code,
                       [VInstance (fresh (dom (heap s))); VStr "Alice"]);
                      (VFunction Person_name_code, [VInstance (fresh (dom (heap s)))]);
                      (VNative BPrint, [VStr "Alice"])])).
Proof.
  intros [H1 H2]. unfold run_cell, cell_3. rewrite recursion_limit_eq.
  generalize (recursion_limit - 3). intros d.
  erewrite (bind_ok (Person.class_body _)) by (apply class_body_spec; lookup).
  reduce. load_global.
  erewrite (bind_ok (call _ _ _ _)) by apply call_Person.
  reduce. load_builtin (VNative BPrint). load_global.
  erewrite (bind_ok (getattr _ _ _)); cycle 1.
  { apply getattr_property with (dict := {[ "_name" := VStr "Alice" ]}); lookup. }
  rewrite call_S. reduce. unfold ret.
  rewrite <- !app_assoc. reflexivity.
Qed.

(** What a cell does to a state, whatever the environment: its result and
    the text it prints do not depend on the state; it rebinds none but its
    own names; the calls it makes keep the log in order. *)
Lemma cell_1_effect env :
  exists r out, forall s, unshadowed s ->
    exists g' h' cl,
      run_cell env Cell1 s = (r, State g' h' (stdout s +:+ out) (calls s ++ cl)) /\
      (forall n, n ∉ binds Cell1 -> g' !! n = globals s !! n) /\
      log_ok cl /\ Forall (fun e => own_callee Cell1 e.1) cl.
Proof.
  unfold run_cell, cell_1. rewrite import_sklearn, import_inspect_signature.
  rewrite recursion_limit_eq. generalize (recursion_limit - 3). intros d.
  destruct (site_packages env !! "sklearn.model_selection") as [ns|] eqn:Hm.
  2:{ exists (Raise (ImportError "sklearn.model_selection")), "".
      intros s _. exists (globals s), (heap s), []. split; [|split; [|split]].
      - reduce. unfold raise. rewrite append_empty_r, app_nil_r, state_eta. reflexivity.
      - done.
      - constructor.
      - constructor. }
  destruct (ns !! "cross_validate") as [v|] eqn:Hv.
  2:{ exists (Raise (ImportError "cross_validate")), "".
      intros s _. exists (globals s), (heap s), []. split; [|split; [|split]].
      - reduce. unfold raise. rewrite append_empty_r, app_nil_r, state_eta. reflexivity.
      - done.
      - constructor.
      - constructor. }
  destruct (fst (signature env [v] initial_state)) as [x|e] eqn:Hsig.
  - destruct (signature_value _ _ _ Hsig) as [t ->].
    exists (Ok VNone), (t +:+ newline). intros s [Hp _].
    eexists _, _, _. split; [|split; [|split]].
    + reduce. load_global. load_global.
      rewrite call_S. reduce.
      erewrite (bind_ok (signature _ _)) by (rewrite signature_pure, Hsig; reflexivity).
      reduce. load_builtin (VNative BPrint). load_global.
      rewrite call_S. reduce. unfold ret. rewrite <- app_assoc. reflexivity.
    + intros n [Hn1 Hn2]%not_in_pair.
      by rewrite !lookup_insert_ne.
    + log_entries.
    + own_entries.
  - exists (Raise e), "". intros s [Hp _].
    eexists _, _, _. split; [|split; [|split]].
    + reduce. load_global. load_global.
      rewrite call_S. reduce.
      erewrite (bind_raise (signature _ _)) by (rewrite signature_pure, Hsig; reflexivity).
      rewrite append_empty_r. reflexivity.
    + intros n [Hn1 Hn2]%not_in_pair.
      by rewrite !lookup_insert_ne.
    + log_entries.
    + own_entries.
Qed.

Lemma cell_effect env c :
  exists r out, forall s, unshadowed s ->
    exists g' h' cl,
      run_cell env c s = (r, State g' h' (stdout s +:+ out) (calls s ++ cl)) /\
      (forall n, n ∉ binds c -> g' !! n = globals s !! n) /\
      log_ok cl /\ Forall (fun e => own_callee c e.1) cl.
Proof.
  destruct c.
  - apply cell_1_effect.
  - exists (Ok VNone), (("This is public" +:+ newline) +:+ ("This is private" +:+ newline)).
    intros s [Hp _]. eexists _, _, _. split; [|split; [|split]].
    + rewrite cell_2_spec by exact Hp. rewrite append_assoc. reflexivity.
    + intros n [Hn1 Hn2]%not_in_pair.
      by rewrite !lookup_insert_ne.
    + log_entries.
    + own_entries.
  - exists (Ok VNone), ("Alice" +:+ newline).
    intros s Hs. eexists _, _, _. split; [|split; [|split]].
    + rewrite cell_3_spec by exact Hs. reflexivity.
    + intros n [Hn1 Hn2]%not_in_pair.
      by rewrite !lookup_insert_ne.
    + log_entries.
    + own_entries.
Qed.

(** What the first cell leaves in the namespace is fixed by the
    environment: a map [w] over its own two names that it lays over the
    globals it finds. *)
Lemma cell_1_store env :
  exists w : gmap string value,
    (forall n, n ∉ binds Cell1 -> w !! n = None) /\
    forall s, unshadowed s ->
      heap (snd (run_cell env Cell1 s)) = heap s /\
      forall n, globals (snd (run_cell env Cell1 s)) !! n
                = match w !! n with Some v => Some v | None => globals s !! n end.
Proof.
  unfold run_cell, cell_1. rewrite import_sklearn, import_inspect_signature.
  rewrite recursion_limit_eq. generalize (recursion_limit - 3). intros d.
  destruct (site_packages env !! "sklearn.model_selection") as [ns|] eqn:Hm.
  2:{ exists ∅. split; [intros; apply lookup_empty|].
      intros s _. reduce. split; [reflexivity|]. intros n. by rewrite lookup_empty. }
  destruct (ns !! "cross_validate") as [v|] eqn:Hv.
  2:{ exists ∅. split; [intros; apply lookup_empty|].
      intros s _. reduce. split; [reflexivity|]. intros n. by rewrite lookup_empty. }
  destruct (fst (signature env [v] initial_state)) as [x|e] eqn:Hsig.
  - destruct (signature_value _ _ _ Hsig) as [t ->].
    exists (<["signature" := VSignature t]> (<["cross_validate" := v]> ∅)).
    split.
    { intros n [Hn1 Hn2]%not_in_pair. by rewrite !lookup_insert_ne. }
    intros s [Hp _].
    reduce. load_global. load_global.
    rewrite call_S. reduce.
    erewrite (bind_ok (signature _ _)) by (rewrite signature_pure, Hsig; reflexivity).
    reduce. load_builtin (VNative BPrint). load_global.
    rewrite call_S. reduce. unfold ret. cbn [snd heap globals].
    split; [reflexivity|]. intros n.
    destruct (decide (n = "signature")) as [->|Hn1]; [by rewrite !lookup_insert_eq|].
    rewrite !(lookup_insert_ne _ "signature") by done.
    destruct (decide (n = "cross_validate")) as [->|Hn2]; [by rewrite !lookup_insert_eq|].
    by rewrite !lookup_insert_ne, lookup_empty.
  - exists (<["signature" := VNative BSignature]> (<["cross_validate" := v]> ∅)).
    split.
    { intros n [Hn1 Hn2]%not_in_pair. by rewrite !lookup_insert_ne. }
    intros s [Hp _].
    reduce. load_global. load_global.
    rewrite call_S. reduce.
    erewrite (bind_raise (signature _ _)) by (rewrite signature_pure, Hsig; reflexivity).
    cbn [snd heap globals].
    split; [reflexivity|]. intros n.
    destruct (decide (n = "signature")) as [->|Hn1]; [by rewrite !lookup_insert_eq|].
    rewrite !(lookup_insert_ne _ "signature") by done.
    destruct (decide (n = "cross_validate")) as [->|Hn2]; [by rewrite !lookup_insert_eq|].
    by rewrite !lookup_insert_ne, lookup_empty.
Qed.

(** ** Invariants of a run of the notebook *)

Lemma initial_unshadowed : unshadowed initial_state.
Proof. split; reflexivity. Qed.

Lemma binds_not_builtin c : ("print" ∉ binds c) /\ ("property" ∉ binds c).
Proof. destruct c; unfold binds; rewrite !not_in_pair; by repeat split. Qed.

Lemma binds_disjoint c c' n : c <> c' -> n ∈ binds c -> n ∉ binds c'.
Proof.
  intros Hc H1 H2. revert H1 H2.
  destruct c, c'; try done; unfold binds;
    rewrite !elem_of_union, !elem_of_singleton;
    intros [-> | ->] [? | ?]; discriminate.
Qed.

Lemma run_cell_unshadowed env c s :
  unshadowed s -> unshadowed (snd (run_cell env c s)).
Proof.
  intros Hs.
  destruct (cell_effect env c) as (r & out & Heff).
  destruct (Heff s Hs) as (g' & h' & cl & -> & Hg & _).
  destruct (binds_not_builtin c) as [Hp1 Hp2]. destruct Hs as [Hs1 Hs2].
  unfold unshadowed. cbn [snd globals]. by rewrite (Hg _ Hp1), (Hg _ Hp2).
Qed.

Lemma run_cell_log_ok env c s :
  unshadowed s -> log_ok (calls s) -> log_ok (calls (snd (run_cell env c s))).
Proof.
  intros Hs Hl.
  destruct (cell_effect env c) as (r & out & Heff).
  destruct (Heff s Hs) as (g' & h' & cl & -> & _ & Hcl & _).
  cbn [snd calls]. apply Forall_app. by split.
Qed.

Lemma run_cells_invariant env cs :
  forall s, unshadowed s -> log_ok (calls s) ->
    unshadowed (run_cells env cs s) /\ log_ok (calls (run_cells env cs s)).
Proof.
  induction cs as [|c cs IH]; intros s Hs Hl; [by split|].
  cbn [run_cells]. apply IH.
  - by apply run_cell_unshadowed.
  - by apply run_cell_log_ok.
Qed.

(** In whatever order the cells have been run, [print] and [property]
    are still the builtins. *)
Lemma run_cells_unshadowed env cs : unshadowed (run_cells env cs initial_state).
Proof.
  apply run_cells_invariant; [apply initial_unshadowed | constructor].
Qed.

(** Across a run, the names of the first cell hold nothing but what the
    first cell puts there. *)
Lemma run_cells_within env w cs :
  (forall n, n ∉ binds Cell1 -> w !! n = None) ->
  (forall s, unshadowed s ->
     forall n, globals (snd (run_cell env Cell1 s)) !! n
               = match w !! n with Some v => Some v | None => globals s !! n end) ->
  forall s, unshadowed s -> within w (globals s) ->
    within w (globals (run_cells env cs s)).
Proof.
  intros Hw H1. induction cs as [|c cs IH]; intros s Hs Hin; [exact Hin|].
  cbn [run_cells]. apply IH.
  - by apply run_cell_unshadowed.
  - intros n x v Hx Hv.
    destruct (decide (c = Cell1)) as [->|Hc].
    + rewrite (H1 s Hs), Hx in Hv. congruence.
    + destruct (cell_effect env c) as (r & out & Heff).
      destruct (Heff s Hs) as (g' & h' & cl & Hrun & Hg & _).
      rewrite Hrun in Hv. cbn [snd globals] in Hv.
      rewrite Hg in Hv; [by eapply Hin|].
      destruct (decide (n ∈ binds Cell1)) as [Hn|Hn].
      * eapply binds_disjoint; [|exact Hn]. done.
      * rewrite (Hw n Hn) in Hx. discriminate.
Qed.

Lemma cell_1_keeps_store env cs :
  heap (snd (run_cell env Cell1 (run_cells env cs initial_state)))
    = heap (run_cells env cs initial_state) /\
  forall n v,
    globals (run_cells env cs initial_state) !! n = Some v ->
    globals (snd (run_cell env Cell1 (run_cells env cs initial_state))) !! n = Some v.
Proof.
  destruct (cell_1_store env) as (w & Hw & H1).
  pose proof (run_cells_unshadowed env cs) as Hs.
  destruct (H1 _ Hs) as [Hh Hg]. split; [exact Hh|].
  intros n v Hv. rewrite Hg.
  destruct (w !! n) as [x|] eqn:Hx; [|exact Hv].
  f_equal. eapply (run_cells_within env w cs Hw); [| | | exact Hx | exact Hv].
  - intros s' Hs'. apply (H1 s' Hs').
  - apply initial_unshadowed.
  - intros ? ? ? _ Hv'. unfold initial_state in Hv'. cbn [globals] in Hv'.
    by rewrite lookup_empty in Hv'.
Qed.

(** ** The operations on a [Person] *)

Lemma run_op_frame env a dict v o s :
  globals s !! "print" = None ->
  heap s !! a = Some (Instance Person_class dict) ->
  dict !! "_name" = Some v ->
  same_store s (snd (run_op env (VInstance a) o s)).
Proof.
  intros Hp Ha Hv. unfold run_op. rewrite recursion_limit_eq.
  generalize (recursion_limit - 3). intros d.
  destruct o.
  - erewrite getattr_property by eassumption. by split.
  - load_builtin (VNative BPrint).
    erewrite (bind_ok (getattr _ _ _)) by (eapply getattr_property; eassumption).
    rewrite call_S. reduce.
    match goal with |- same_store _ (snd (print ?args ?s1)) =>
      destruct (print_frame args s1) as [Hg Hh] end.
    split; [rewrite Hg | rewrite Hh]; reflexivity.
Qed.

Lemma run_ops_frame env a dict v ops :
  forall s,
    globals s !! "print" = None ->
    heap s !! a = Some (Instance Person_class dict) ->
    dict !! "_name" = Some v ->
    same_store s (run_ops env (VInstance a) ops s).
Proof.
  induction ops as [|o ops IH]; intros s Hp Ha Hv; [by split|].
  cbn [run_ops].
  destruct (run_op_frame env a dict v o s Hp Ha Hv) as [Hg Hh].
  destruct (IH (snd (run_op env (VInstance a) o s))) as [Hg' Hh'].
  - by rewrite Hg.
  - by rewrite Hh.
  - exact Hv.
  - split; [by rewrite Hg', Hg | by rewrite Hh', Hh].
Qed.

(** ** The recorded outputs of the notebook

    Running each cell in a new kernel prints what the notebook file
    records as the output of that cell. *)

Example cell_1_recorded_output :
  stdout (snd (run_cell recorded_env Cell1 initial_state))
  = cross_validate_signature +:+ newline.
Proof. vm_compute. reflexivity. Qed.

Example cell_2_recorded_output :
  stdout (snd (run_cell recorded_env Cell2 initial_state))
  = "This is public" +:+ newline +:+ "This is private" +:+ newline.
Proof. vm_compute. reflexivity. Qed.

Example cell_3_recorded_output :
  stdout (snd (run_cell recorded_env Cell3 initial_state)) = "Alice" +:+ newline.
Proof. vm_compute. reflexivity. Qed.

Example Person_Alice_name :
  fst ((let* p := call recorded_env recursion_limit Person_class [VStr "Alice"] in
        getattr (call recorded_env recursion_limit) p "name") initial_state)
  = Ok (VStr "Alice").
Proof. vm_compute. reflexivity. Qed.

(** ** The claims *)

(** C1. For every value [v], the object [Person(v)] is built without error
    and reading its [name] returns exactly [v]: the call of the class
    yields an instance, and [getattr] of ["name"] on it yields [Ok v].  In
    particular the third cell, which prints [Person("Alice").name], prints
    "Alice", after whatever cells have been run. *)
Theorem Person_name_returns_value env d d' v s :
  (exists a s1 s2,
     call env (S (S d)) Person_class [v] s = (Ok (VInstance a), s1) /\
     getattr (call env (S d')) (VInstance a) "name" s1 = (Ok v, s2)) /\
  (forall cs,
     stdout (snd (run_cell env Cell3 (run_cells env cs initial_state)))
       = stdout (run_cells env cs initial_state) +:+ "Alice" +:+ newline).
Proof.
  split.
  - eexists _, _, _. split.
    + apply call_Person.
    + eapply getattr_property; lookup.
  - intros cs. rewrite cell_3_spec by apply run_cells_unshadowed. reflexivity.
Qed.

(** C2. Whenever [print] is the builtin, a call of [func_public()] returns
    after appending exactly "This is public" and a newline to standard
    output, and a call of [_func_private()] after appending exactly
    "This is private" and a newline; nothing else is written.  So the
    second cell, which calls the one and then the other, appends exactly
    these two lines, after whatever cells have been run. *)
Theorem functions_print_literal env d s :
  globals s !! "print" = None ->
  stdout (snd (call env (S (S d)) (VFunction func_public_code) [] s))
    = stdout s +:+ "This is public" +:+ newline /\
  stdout (snd (call env (S (S d)) (VFunction _func_private_code) [] s))
    = stdout s +:+ "This is private" +:+ newline /\
  (forall cs,
     stdout (snd (run_cell env Cell2 (run_cells env cs initial_state)))
       = stdout (run_cells env cs initial_state)
         +:+ ("This is public" +:+ newline) +:+ ("This is private" +:+ newline)).
Proof.
  intros H. rewrite call_func_public, call_func_private by exact H.
  repeat split. intros cs.
  rewrite cell_2_spec by apply run_cells_unshadowed. reflexivity.
Qed.

Lemma functions_print_literal_witness :
  stdout (snd (call recorded_env 2 (VFunction func_public_code) [] initial_state))
    = "This is public" +:+ newline /\
  stdout (snd (call recorded_env 2 (VFunction _func_private_code) [] initial_state))
    = "This is private" +:+ newline /\
  (forall cs,
     stdout (snd (run_cell recorded_env Cell2 (run_cells recorded_env cs initial_state)))
       = stdout (run_cells recorded_env cs initial_state)
         +:+ ("This is public" +:+ newline) +:+ ("This is private" +:+ newline)).
Proof.
  apply (functions_print_literal recorded_env 0 initial_state). reflexivity.
Defined.

(** C3. The leading underscore changes nothing about calling: whenever
    [print] is the builtin, a call of [_func_private()], like a call of
    [func_public()], returns [None] and raises nothing; once the [def] has
    bound it, the name [_func_private] resolves like any other; and the
    second cell, which calls both, runs to its end after whatever cells
    have been run. *)
Theorem private_function_callable env d s :
  globals s !! "print" = None ->
  fst (call env (S (S d)) (VFunction _func_private_code) [] s) = Ok VNone /\
  fst (call env (S (S d)) (VFunction func_public_code) [] s) = Ok VNone /\
  fst (load_name "_func_private"
         (snd (store_name "_func_private" (VFunction _func_private_code) s)))
    = Ok (VFunction _func_private_code) /\
  (forall cs, fst (run_cell env Cell2 (run_cells env cs initial_state)) = Ok VNone).
Proof.
  intros H. rewrite call_func_public, call_func_private by exact H.
  repeat split.
  - unfold load_name, store_name. cbn [snd globals fst].
    rewrite lookup_insert_eq. reflexivity.
  - intros cs. rewrite cell_2_spec by apply run_cells_unshadowed. reflexivity.
Qed.

Lemma private_function_callable_witness :
  fst (call recorded_env 2 (VFunction _func_private_code) [] initial_state) = Ok VNone /\
  fst (call recorded_env 2 (VFunction func_public_code) [] initial_state) = Ok VNone /\
  fst (load_name "_func_private"
         (snd (store_name "_func_private" (VFunction _func_private_code) initial_state)))
    = Ok (VFunction _func_private_code) /\
  (forall cs,
     fst (run_cell recorded_env Cell2 (run_cells recorded_env cs initial_state)) = Ok VNone).
Proof.
  apply (private_function_callable recorded_env 0 initial_state). reflexivity.
Defined.

(** C4. [name] is read-only: for every instance [p] of [Person], whatever
    its dictionary holds, the assignment [p.name = v] raises
    [AttributeError] and leaves the whole state, hence [p._name], as it
    was. *)
Theorem name_assignment_refused call a dict v s :
  heap s !! a = Some (Instance Person_class dict) ->
  setattr call (VInstance a) "name" v s = (Raise (AttributeError "name"), s) /\
  heap (snd (setattr call (VInstance a) "name" v s)) !! a
    = Some (Instance Person_class dict).
Proof.
  intros H. erewrite setattr_property by exact H. split; [reflexivity | exact H].
Qed.

Lemma name_assignment_refused_witness :
  setattr (call recorded_env recursion_limit) (VInstance 1%positive) "name" (VStr "Bob")
          alice_state
    = (Raise (AttributeError "name"), alice_state) /\
  heap (snd (setattr (call recorded_env recursion_limit) (VInstance 1%positive) "name"
                     (VStr "Bob") alice_state)) !! 1%positive
    = Some (Instance Person_class {[ "_name" := VStr "Alice" ]}).
Proof.
  apply (name_assignment_refused _ 1%positive {[ "_name" := VStr "Alice" ]}).
  vm_compute. reflexivity.
Defined.

(** C5. When the third-party library can be imported, every one of the
    three cells, run after any sequence of cells in a new kernel, runs to
    its end: it raises nothing and its last expression is [None]. *)
Theorem cells_run_to_completion env cs c :
  library_importable env ->
  fst (run_cell env c (run_cells env cs initial_state)) = Ok VNone.
Proof.
  intros (ns & q & t & Hm & Hq & Ht).
  destruct (run_cells_unshadowed env cs) as [Hp Hy].
  destruct c.
  - erewrite cell_1_spec by eassumption. reflexivity.
  - rewrite cell_2_spec by exact Hp. reflexivity.
  - rewrite cell_3_spec by (split; assumption). reflexivity.
Qed.

Lemma cells_run_to_completion_witness :
  fst (run_cell recorded_env Cell1
         (run_cells recorded_env [Cell3; Cell1; Cell2] initial_state)) = Ok VNone.
Proof.
  apply (cells_run_to_completion recorded_env [Cell3; Cell1; Cell2] Cell1).
  exists {[ "cross_validate" := cross_validate ]},
         "sklearn.model_selection.cross_validate", cross_validate_signature.
  repeat split; reflexivity.
Defined.

(** C6. The calls and the read of the notebook change nothing but standard
    output.  In every state in which [print] is the builtin, so in every
    state a run of the notebook reaches, before or after the third cell:
    the call of [inspect.signature], on any arguments, leaves the globals,
    the heap and standard output as they were; the calls of
    [func_public()] and [_func_private()] leave the globals and the heap
    as they were; and for every [Person] [p] in the heap, reading [p.name]
    leaves the globals, the heap and standard output as they were.  The
    same holds of the introspection taken as the whole first cell: run
    after any sequence of cells, it leaves the heap as it was and every
    global defined before it with the value it had. *)
Theorem operations_only_write_stdout env d s :
  globals s !! "print" = None ->
  (forall args,
     same_store s (snd (call env (S d) (VNative BSignature) args s)) /\
     stdout (snd (call env (S d) (VNative BSignature) args s)) = stdout s) /\
  same_store s (snd (call env (S (S d)) (VFunction func_public_code) [] s)) /\
  same_store s (snd (call env (S (S d)) (VFunction _func_private_code) [] s)) /\
  (forall a dict,
     heap s !! a = Some (Instance Person_class dict) ->
     same_store s (snd (getattr (call env (S d)) (VInstance a) "name" s)) /\
     stdout (snd (getattr (call env (S d)) (VInstance a) "name" s)) = stdout s) /\
  (forall cs,
     heap (snd (run_cell env Cell1 (run_cells env cs initial_state)))
       = heap (run_cells env cs initial_state) /\
     forall n v,
       globals (run_cells env cs initial_state) !! n = Some v ->
       globals (snd (run_cell env Cell1 (run_cells env cs initial_state))) !! n = Some v).
Proof.
  intros Hp. split; [|split; [|split; [|split]]].
  - intros args. rewrite call_S. reduce. rewrite signature_pure. by repeat split.
  - rewrite call_func_public by exact Hp. by split.
  - rewrite call_func_private by exact Hp. by split.
  - intros a dict Ha. eapply getattr_property_frame. exact Ha.
  - apply cell_1_keeps_store.
Qed.

Lemma operations_only_write_stdout_witness :
  (forall args,
     same_store alice_state (snd (call recorded_env 2 (VNative BSignature) args alice_state)) /\
     stdout (snd (call recorded_env 2 (VNative BSignature) args alice_state))
       = stdout alice_state) /\
  same_store alice_state
    (snd (call recorded_env 3 (VFunction func_public_code) [] alice_state)) /\
  same_store alice_state
    (snd (call recorded_env 3 (VFunction _func_private_code) [] alice_state)) /\
  (same_store alice_state
     (snd (getattr (call recorded_env 2) (VInstance 1%positive) "name" alice_state)) /\
   stdout (snd (getattr (call recorded_env 2) (VInstance 1%positive) "name" alice_state))
     = stdout alice_state) /\
  (forall cs,
     heap (snd (run_cell recorded_env Cell1 (run_cells recorded_env cs initial_state)))
       = heap (run_cells recorded_env cs initial_state) /\
     forall n v,
       globals (run_cells recorded_env cs initial_state) !! n = Some v ->
       globals (snd (run_cell recorded_env Cell1 (run_cells recorded_env cs initial_state)))
         !! n = Some v).
Proof.
  destruct (operations_only_write_stdout recorded_env 1 alice_state)
    as (H1 & H2 & H3 & H4 & H5).
  - vm_compute. reflexivity.
  - split; [exact H1|]. split; [exact H2|]. split; [exact H3|]. split; [|exact H5].
    apply (H4 1%positive {[ "_name" := VStr "Alice" ]}).
    vm_compute. reflexivity.
Defined.

(** The calls in a new kernel, where no [Person] exists yet, as when the
    cells are run from top to bottom. *)
Example calls_change_nothing_before_any_person :
  same_store initial_state
    (snd (call recorded_env recursion_limit (VNative BSignature) [cross_validate]
            initial_state)) /\
  same_store initial_state
    (snd (call recorded_env recursion_limit (VFunction func_public_code) [] initial_state)) /\
  same_store initial_state
    (snd (call recorded_env recursion_limit (VFunction _func_private_code) [] initial_state)).
Proof.
  rewrite recursion_limit_eq.
  rewrite call_func_public, call_func_private by reflexivity.
  rewrite call_S. reduce. rewrite signature_pure. by repeat split.
Qed.

(** C7. In every run of the notebook, whatever cells are run and in
    whatever order, [cross_validate] is never called, nor is any other
    function of a third-party library; the only call that receives such a
    function as an argument is the call of [inspect.signature]. *)
Theorem cross_validate_never_called env cs :
  Forall (fun e => e.1 <> cross_validate /\
                   (forall q, e.1 <> VLib q) /\
                   (forall q, VLib q ∈ e.2 -> e.1 = VNative BSignature))
         (calls (run_cells env cs initial_state)).
Proof.
  destruct (run_cells_invariant env cs initial_state) as [_ Hl];
    [apply initial_unshadowed | constructor |].
  eapply Forall_impl; [exact Hl|].
  intros e [H1 H2]. repeat split; [apply H1 | exact H1 | exact H2].
Qed.

(** C8. The cells are independent of one another.  For every cell there
    are one result and one printed text that running it gives from every
    state in which [print] and [property] are the builtins, whatever else
    the namespace and the heap hold, and so after every sequence of cells
    run in a new kernel; it rebinds no global name outside its own, and the
    names of two different cells are disjoint; every call it makes is a
    call of a native of the runtime or of a function or class it defines
    itself. *)
Theorem cells_independent env c :
  (exists r out,
     (forall s, unshadowed s ->
        fst (run_cell env c s) = r /\
        stdout (snd (run_cell env c s)) = stdout s +:+ out) /\
     (forall cs,
        fst (run_cell env c (run_cells env cs initial_state)) = r /\
        stdout (snd (run_cell env c (run_cells env cs initial_state)))
          = stdout (run_cells env cs initial_state) +:+ out)) /\
  (forall cs n, n ∉ binds c ->
     globals (snd (run_cell env c (run_cells env cs initial_state))) !! n
       = globals (run_cells env cs initial_state) !! n) /\
  (forall cs, exists cl,
     calls (snd (run_cell env c (run_cells env cs initial_state)))
       = (calls (run_cells env cs initial_state) ++ cl)%list /\
     Forall (fun e => own_callee c e.1) cl) /\
  (forall c', c' <> c -> binds c' ## binds c).
Proof.
  destruct (cell_effect env c) as (r & out & Heff).
  assert (forall s, unshadowed s ->
            fst (run_cell env c s) = r /\
            stdout (snd (run_cell env c s)) = stdout s +:+ out) as Hany.
  { intros s Hs. destruct (Heff s Hs) as (g' & h' & cl & -> & _). by split. }
  split; [|split; [|split]].
  - exists r, out. split; [exact Hany|].
    intros cs. apply Hany, run_cells_unshadowed.
  - intros cs n Hn.
    destruct (Heff _ (run_cells_unshadowed env cs)) as (g' & h' & cl & -> & Hg & _).
    by apply Hg.
  - intros cs.
    destruct (Heff _ (run_cells_unshadowed env cs)) as (g' & h' & cl & -> & _ & _ & Hown).
    by exists cl.
  - intros c' Hc' n H1 H2. by apply (binds_disjoint c' c n).
Qed.

(** C9. For every value [v], the stored attribute of [Person(v)] can be
    read from outside the class: [getattr] of ["_name"] raises nothing,
    changes nothing, and yields [v], the very value reading [name]
    yields. *)
Theorem stored_name_readable env call' d d' v s :
  exists a s1 s2,
    call env (S (S d)) Person_class [v] s = (Ok (VInstance a), s1) /\
    getattr call' (VInstance a) "_name" s1 = (Ok v, s1) /\
    getattr (call env (S d')) (VInstance a) "name" s1 = (Ok v, s2).
Proof.
  eexists _, _, _. split; [apply call_Person | split].
  - eapply getattr_stored; lookup.
  - eapply getattr_property; lookup.
Qed.

(** C10. Whenever [print] is the builtin, after [p = Person(v)] any
    sequence of reads of [p.name] and of [print(p.name)] leaves [p._name]
    equal to [v], and reading [p.name] afterwards still returns [v]. *)
Theorem stored_name_preserved env v ops s0 :
  globals s0 !! "print" = None ->
  exists a s,
    call env recursion_limit Person_class [v] s0 = (Ok (VInstance a), s) /\
    fst (getattr (call env recursion_limit) (VInstance a) "_name"
           (run_ops env (VInstance a) ops s)) = Ok v /\
    fst (getattr (call env recursion_limit) (VInstance a) "name"
           (run_ops env (VInstance a) ops s)) = Ok v.
Proof.
  intros Hp. rewrite recursion_limit_eq.
  eexists _, _. split; [apply call_Person|].
  match goal with |- context [run_ops env (VInstance ?a) ops ?s] =>
    destruct (run_ops_frame env a {[ "_name" := v ]} v ops s) as [Hg Hh];
      [exact Hp | lookup | lookup |];
    assert (heap (run_ops env (VInstance a) ops s) !! a
            = Some (Instance Person_class {[ "_name" := v ]})) as Ha
      by (rewrite Hh; lookup)
  end.
  split.
  - erewrite getattr_stored; [reflexivity | exact Ha | lookup].
  - erewrite getattr_property; [reflexivity | exact Ha | lookup].
Qed.

Lemma stored_name_preserved_witness :
  exists a s,
    call recorded_env recursion_limit Person_class [VStr "Alice"] initial_state
      = (Ok (VInstance a), s) /\
    fst (getattr (call recorded_env recursion_limit) (VInstance a) "_name"
           (run_ops recorded_env (VInstance a) [ReadName; PrintName; ReadName] s))
      = Ok (VStr "Alice") /\
    fst (getattr (call recorded_env recursion_limit) (VInstance a) "name"
           (run_ops recorded_env (VInstance a) [ReadName; PrintName; ReadName] s))
      = Ok (VStr "Alice").
Proof.
  apply (stored_name_preserved recorded_env (VStr "Alice")
           [ReadName; PrintName; ReadName] initial_state).
  reflexivity.
Defined.

(** * Further properties of the cells *)

(** ** The cells as sequences of their statements *)

Lemma cell_1_statements env s :
  cell_1 env s =
  (let* _ := import_from env "sklearn.model_selection" "cross_validate" in
   let* _ := import_from env "inspect" "signature" in
   introspect env) s.
Proof. reflexivity. Qed.

Lemma cell_2_statements env s :
  cell_2 env s =
  (let* _ := store_name "func_public" (VFunction func_public_code) in
   let* _ := store_name "_func_private" (VFunction _func_private_code) in
   let* _ := call_statement env "func_public" [] in
   call_statement env "_func_private" []) s.
Proof. unfold call_statement. reduce. reflexivity. Qed.

Lemma cell_3_statements env s :
  cell_3 env s =
  (let* ns := Person.class_body (call env recursion_limit) in
   let* _ := store_name "Person" (VClass "Person" ns) in
   let* c := load_name "Person" in
   let* o := call env recursion_limit c [VStr "Alice"] in
   let* _ := store_name "person" o in
   print_person_name env) s.
Proof. reflexivity. Qed.

(** ** Runs of cells *)

Lemma run_cell_frame env c n s :
  unshadowed s -> n ∉ binds c ->
  globals (snd (run_cell env c s)) !! n = globals s !! n.
Proof.
  intros Hs Hn.
  destruct (cell_effect env c) as (r & out & Heff).
  destruct (Heff s Hs) as (g' & h' & cl & -> & Hg & _). by apply Hg.
Qed.

Lemma run_cells_frame env cs n :
  forall s, unshadowed s -> (forall c, c ∈ cs -> n ∉ binds c) ->
    globals (run_cells env cs s) !! n = globals s !! n.
Proof.
  induction cs as [|c cs IH]; intros s Hs Hn; [reflexivity|].
  cbn [run_cells]. rewrite IH.
  - apply run_cell_frame; [exact Hs|]. apply Hn. left.
  - by apply run_cell_unshadowed.
  - intros c' Hc'. apply Hn. by right.
Qed.

Lemma run_cells_app env cs cs' s :
  run_cells env (cs ++ cs') s = run_cells env cs' (run_cells env cs s).
Proof. revert s. induction cs as [|c cs IH]; intros s; [reflexivity|]. apply IH. Qed.

Lemma run_cells_unshadowed_from env cs s :
  unshadowed s -> unshadowed (run_cells env cs s).
Proof.
  revert s. induction cs as [|c cs IH]; intros s Hs; [exact Hs|].
  apply IH. by apply run_cell_unshadowed.
Qed.

Lemma cell_heap_same env c s :
  unshadowed s -> c <> Cell3 -> heap (snd (run_cell env c s)) = heap s.
Proof.
  intros Hs Hc. destruct c; [| |done].
  - destruct (cell_1_store env) as (w & _ & H1). by destruct (H1 s Hs).
  - rewrite cell_2_spec by apply Hs. reflexivity.
Qed.

Lemma cell_heap_keeps env c s a inst :
  unshadowed s -> heap s !! a = Some inst ->
  heap (snd (run_cell env c s)) !! a = Some inst.
Proof.
  intros Hs Ha. destruct (decide (c = Cell3)) as [->|Hc].
  - rewrite cell_3_spec by exact Hs. cbn [snd heap].
    rewrite lookup_insert_ne; [exact Ha|].
    intros Heq. apply (is_fresh (dom (heap s))). rewrite Heq.
    apply elem_of_dom. by eexists.
  - by rewrite cell_heap_same.
Qed.

(** A name bound by the second cell is bound, once the cell has run, to
    the function the cell defines. *)
Lemma run_cells_defines_functions env cs :
  forall s, unshadowed s ->
    Cell2 ∈ cs \/
      (globals s !! "func_public" = Some (VFunction func_public_code) /\
       globals s !! "_func_private" = Some (VFunction _func_private_code)) ->
    globals (run_cells env cs s) !! "func_public" = Some (VFunction func_public_code) /\
    globals (run_cells env cs s) !! "_func_private" = Some (VFunction _func_private_code).
Proof.
  induction cs as [|c cs IH]; intros s Hs H.
  - destruct H as [H|H]; [by apply elem_of_nil in H | exact H].
  - cbn [run_cells]. apply IH; [by apply run_cell_unshadowed|].
    destruct (decide (c = Cell2)) as [->|Hc].
    + right. rewrite cell_2_spec by apply Hs. cbn [snd]. split; lookup.
    + destruct H as [H|[H1 H2]].
      * apply elem_of_cons in H as [H|H]; [congruence | by left].
      * right. rewrite !run_cell_frame; [done|done| |done|].
        all: apply (binds_disjoint Cell2); [done|];
          unfold binds; rewrite elem_of_union, !elem_of_singleton; auto.
Qed.

Lemma run_cell_person env c s :
  unshadowed s -> c = Cell3 \/ person_is_alice s ->
  person_is_alice (snd (run_cell env c s)).
Proof.
  intros Hs H. destruct (decide (c = Cell3)) as [->|Hc].
  - rewrite cell_3_spec by exact Hs. eexists. cbn [snd]. split; lookup.
  - destruct H as [H|(a & Hg & Hh)]; [done|].
    exists a. split.
    + rewrite run_cell_frame; [exact Hg | exact Hs |].
      apply (binds_disjoint Cell3); [done|].
      unfold binds. rewrite elem_of_union, !elem_of_singleton. auto.
    + by apply cell_heap_keeps.
Qed.

Lemma run_cells_person env cs :
  forall s, unshadowed s -> Cell3 ∈ cs \/ person_is_alice s ->
    person_is_alice (run_cells env cs s).
Proof.
  induction cs as [|c cs IH]; intros s Hs H.
  - destruct H as [H|H]; [by apply elem_of_nil in H | exact H].
  - cbn [run_cells]. apply IH; [by apply run_cell_unshadowed|].
    destruct (decide (c = Cell3)) as [Hc|Hc].
    + right. apply run_cell_person; auto.
    + destruct H as [H|H].
      * apply elem_of_cons in H as [H|H]; [congruence | by left].
      * right. apply run_cell_person; auto.
Qed.

(** What a cell does to the namespace and to the heap, as functions of the
    heap it finds: a map of bindings laid over the globals, and a new heap.
    Only the third cell looks at the heap. *)
Lemma cell_store_effect env c :
  exists (w : gmap loc instance -> gmap string value)
         (H : gmap loc instance -> gmap loc instance),
    (forall h n, n ∉ binds c -> w h !! n = None) /\
    (c <> Cell3 -> forall h h', w h = w h' /\ H h = h) /\
    forall s, unshadowed s ->
      heap (snd (run_cell env c s)) = H (heap s) /\
      forall n, globals (snd (run_cell env c s)) !! n
                = match w (heap s) !! n with Some v => Some v | None => globals s !! n end.
Proof.
  destruct c.
  - destruct (cell_1_store env) as (w & Hw & H1).
    exists (fun _ => w), (fun h => h). split; [|split].
    + intros _. exact Hw.
    + by intros _ h h'.
    + exact H1.
  - exists (fun _ => <["_func_private" := VFunction _func_private_code]>
                       (<["func_public" := VFunction func_public_code]> ∅)), (fun h => h).
    split; [|split].
    + intros _ n [Hn1 Hn2]%not_in_pair. by rewrite !lookup_insert_ne.
    + by intros _ h h'.
    + intros s [Hp _]. rewrite cell_2_spec by exact Hp. cbn [snd heap globals].
      split; [reflexivity|]. intros n.
      destruct (decide (n = "_func_private")) as [->|Hn1]; [by rewrite !lookup_insert_eq|].
      rewrite !(lookup_insert_ne _ "_func_private") by done.
      destruct (decide (n = "func_public")) as [->|Hn2]; [by rewrite !lookup_insert_eq|].
      by rewrite !lookup_insert_ne, lookup_empty.
  - exists (fun h => <["person" := VInstance (fresh (dom h))]> (<["Person" := Person_class]> ∅)),
           (fun h => <[fresh (dom h) := Instance Person_class {[ "_name" := VStr "Alice" ]}]> h).
    split; [|split].
    + intros h n [Hn1 Hn2]%not_in_pair. by rewrite !lookup_insert_ne.
    + done.
    + intros s Hs. rewrite cell_3_spec by exact Hs. cbn [snd heap globals].
      split; [reflexivity|]. intros n.
      destruct (decide (n = "person")) as [->|Hn1]; [by rewrite !lookup_insert_eq|].
      rewrite !(lookup_insert_ne _ "person") by done.
      destruct (decide (n = "Person")) as [->|Hn2]; [by rewrite !lookup_insert_eq|].
      by rewrite !lookup_insert_ne, lookup_empty.
Qed.

(** ** What the cells do beyond the claims *)

(** X1. When the module cannot be imported, or does not export
    [cross_validate], the first cell raises [ImportError] at its first
    line and leaves the whole state as it was: nothing is bound, nothing
    is printed, nothing is called. *)
Theorem import_failure_leaves_state env s :
  site_packages env !! "sklearn.model_selection" ≫= (fun ns => ns !! "cross_validate") = None ->
  exists name, run_cell env Cell1 s = (Raise (ImportError name), s).
Proof.
  intros H. unfold run_cell, cell_1. rewrite import_sklearn.
  destruct (site_packages env !! "sklearn.model_selection") as [ns|]; cbn in H.
  - rewrite H. by eexists.
  - by eexists.
Qed.

Lemma import_failure_leaves_state_witness :
  exists name, run_cell bare_env Cell1 alice_state = (Raise (ImportError name), alice_state).
Proof. apply (import_failure_leaves_state bare_env alice_state). reflexivity. Defined.

(** X2. The first cell rebinds [signature] to its own result.  Once the
    cell has completed, and whatever other cells are run after it, the
    global [signature] is the [Signature] object, so running the last two
    statements of the cell again without the imports raises [TypeError],
    prints nothing and binds nothing. *)
Theorem introspection_shadows_itself env cs cs' :
  library_importable env ->
  Cell1 ∉ cs' ->
  exists t x,
    globals (run_cells env (cs ++ Cell1 :: cs') initial_state) !! "signature"
      = Some (VSignature t) /\
    introspect env (run_cells env (cs ++ Cell1 :: cs') initial_state) = (Raise TypeError, x) /\
    stdout x = stdout (run_cells env (cs ++ Cell1 :: cs') initial_state) /\
    globals x = globals (run_cells env (cs ++ Cell1 :: cs') initial_state).
Proof.
  intros (ns & q & t & Hm & Hq & Ht) Hcs'.
  rewrite run_cells_app. cbn [run_cells].
  pose proof (run_cells_unshadowed env cs) as Hs.
  set (s := run_cells env cs initial_state) in *.
  pose proof (cell_1_spec env ns q t s Hm Hq Ht (proj1 Hs)) as H1.
  pose proof (run_cell_unshadowed env Cell1 s Hs) as Hs1.
  set (s1 := snd (run_cell env Cell1 s)) in *.
  assert (forall c, c ∈ cs' -> "signature" ∉ binds c) as F1.
  { intros c Hc. apply (binds_disjoint Cell1); [by intros <- |].
    unfold binds. rewrite elem_of_union, !elem_of_singleton. by right. }
  assert (forall c, c ∈ cs' -> "cross_validate" ∉ binds c) as F2.
  { intros c Hc. apply (binds_disjoint Cell1); [by intros <- |].
    unfold binds. rewrite elem_of_union, !elem_of_singleton. by left. }
  assert (globals (run_cells env cs' s1) !! "signature" = Some (VSignature t)) as G1.
  { rewrite run_cells_frame by assumption. subst s1. rewrite H1. cbn [snd]. lookup. }
  assert (globals (run_cells env cs' s1) !! "cross_validate" = Some (VLib q)) as G2.
  { rewrite run_cells_frame by assumption. subst s1. rewrite H1. cbn [snd]. lookup. }
  exists t. eexists. split; [exact G1|].
  unfold introspect. rewrite recursion_limit_eq.
  erewrite bind_load_global by exact G1.
  erewrite bind_load_global by exact G2.
  rewrite call_S. reduce. unfold raise. by repeat split.
Qed.

Lemma introspection_shadows_itself_witness :
  exists t x,
    globals (run_cells recorded_env ([] ++ Cell1 :: [Cell2; Cell3]) initial_state)
      !! "signature" = Some (VSignature t) /\
    introspect recorded_env
      (run_cells recorded_env ([] ++ Cell1 :: [Cell2; Cell3]) initial_state)
      = (Raise TypeError, x) /\
    stdout x = stdout (run_cells recorded_env ([] ++ Cell1 :: [Cell2; Cell3]) initial_state) /\
    globals x = globals (run_cells recorded_env ([] ++ Cell1 :: [Cell2; Cell3]) initial_state).
Proof.
  apply (introspection_shadows_itself recorded_env [] [Cell2; Cell3]).
  - exists {[ "cross_validate" := cross_validate ]},
           "sklearn.model_selection.cross_validate", cross_validate_signature.
    repeat split; reflexivity.
  - intros H. repeat (apply elem_of_cons in H as [H|H]; [discriminate|]).
    by apply elem_of_nil in H.
Defined.

(** X3. The statements [func_public()] and [_func_private()] work exactly
    when the second cell has been run: after a run that contains the
    second cell both return [None]; after a run that does not, both raise
    [NameError] and leave the state as it was. *)
Theorem functions_need_their_cell env cs :
  (Cell2 ∈ cs ->
     fst (call_statement env "func_public" [] (run_cells env cs initial_state)) = Ok VNone /\
     fst (call_statement env "_func_private" [] (run_cells env cs initial_state)) = Ok VNone) /\
  (Cell2 ∉ cs ->
     call_statement env "func_public" [] (run_cells env cs initial_state)
       = (Raise (NameError "func_public"), run_cells env cs initial_state) /\
     call_statement env "_func_private" [] (run_cells env cs initial_state)
       = (Raise (NameError "_func_private"), run_cells env cs initial_state)).
Proof.
  pose proof (run_cells_unshadowed env cs) as Hs. split.
  - intros Hin.
    destruct (run_cells_defines_functions env cs initial_state initial_unshadowed)
      as [G1 G2]; [by left|].
    unfold call_statement. rewrite recursion_limit_eq.
    erewrite !bind_load_global by eassumption.
    rewrite call_func_public, call_func_private by apply Hs. by split.
  - intros Hnot.
    assert (forall n, n ∈ binds Cell2 ->
              globals (run_cells env cs initial_state) !! n = None) as G.
    { intros n Hn. rewrite run_cells_frame; [reflexivity | apply initial_unshadowed |].
      intros c Hc. apply (binds_disjoint Cell2); [|exact Hn]. by intros <-. }
    unfold call_statement, bind, load_name.
    rewrite !G by (unfold binds; rewrite elem_of_union, !elem_of_singleton; auto).
    by split.
Qed.

(** X4. The statement [print(person.name)] works exactly when the third
    cell has been run: after a run that contains the third cell, whatever
    cells follow it, it prints "Alice"; after a run that does not, it
    raises [NameError] for [person] and leaves the state as it was. *)
Theorem person_name_needs_its_cell env cs :
  (Cell3 ∈ cs ->
     fst (print_person_name env (run_cells env cs initial_state)) = Ok VNone /\
     stdout (snd (print_person_name env (run_cells env cs initial_state)))
       = stdout (run_cells env cs initial_state) +:+ "Alice" +:+ newline) /\
  (Cell3 ∉ cs ->
     print_person_name env (run_cells env cs initial_state)
       = (Raise (NameError "person"), run_cells env cs initial_state)).
Proof.
  pose proof (run_cells_unshadowed env cs) as Hs. split.
  - intros Hin.
    destruct (run_cells_person env cs initial_state initial_unshadowed)
      as (a & Hg & Hh); [by left|].
    unfold print_person_name. rewrite recursion_limit_eq.
    rewrite (bind_load_builtin _ (VNative BPrint)) by (first [reflexivity | apply Hs]).
    erewrite bind_load_global by exact Hg.
    erewrite (bind_ok (getattr _ _ _)); cycle 1.
    { eapply getattr_property; [exact Hh | reflexivity]. }
    rewrite call_S. reduce. by split.
  - intros Hnot.
    assert (globals (run_cells env cs initial_state) !! "person" = None) as G.
    { rewrite run_cells_frame; [reflexivity | apply initial_unshadowed |].
      intros c Hc. apply (binds_disjoint Cell3); [by intros <- |].
      unfold binds. rewrite elem_of_union, !elem_of_singleton. auto. }
    unfold print_person_name.
    rewrite (bind_load_builtin _ (VNative BPrint)) by (first [reflexivity | apply Hs]).
    unfold bind, load_name. rewrite G. reflexivity.
Qed.

(** X5. Instances do not share their state: building a new [Person] gives
    an address different from that of every instance already in the heap,
    leaves each of those as it was, and stores the new name in the new
    instance only. *)
Theorem new_person_leaves_others env d v s a inst :
  heap s !! a = Some inst ->
  exists b s',
    call env (S (S d)) Person_class [v] s = (Ok (VInstance b), s') /\
    b <> a /\
    heap s' !! a = Some inst /\
    heap s' !! b = Some (Instance Person_class {[ "_name" := v ]}).
Proof.
  intros Ha. eexists _, _. split; [apply call_Person|].
  assert (fresh (dom (heap s)) <> a) as Hne.
  { intros Heq. apply (is_fresh (dom (heap s))). rewrite Heq.
    apply elem_of_dom. by eexists. }
  split; [exact Hne|]. cbn [heap]. split.
  - by rewrite lookup_insert_ne.
  - by rewrite lookup_insert_eq.
Qed.

Lemma new_person_leaves_others_witness :
  exists b s',
    call recorded_env 2 Person_class [VStr "Bob"] alice_state = (Ok (VInstance b), s') /\
    b <> 1%positive /\
    heap s' !! 1%positive = Some (Instance Person_class {[ "_name" := VStr "Alice" ]}) /\
    heap s' !! b = Some (Instance Person_class {[ "_name" := VStr "Bob" ]}).
Proof.
  apply (new_person_leaves_others recorded_env 0 (VStr "Bob") alice_state 1%positive).
  vm_compute. reflexivity.
Defined.

(** X6. The property is read-only, the attribute behind it is not: on any
    [Person], the assignment [p._name = w] succeeds, changes neither the
    globals nor standard output, and [p.name] returns [w] afterwards. *)
Theorem stored_name_writable env call' d a dict w s :
  heap s !! a = Some (Instance Person_class dict) ->
  exists s' s'',
    setattr call' (VInstance a) "_name" w s = (Ok tt, s') /\
    globals s' = globals s /\ stdout s' = stdout s /\
    getattr (call env (S d)) (VInstance a) "name" s' = (Ok w, s'').
Proof.
  intros Ha. eexists _, _. split.
  - eapply setattr_plain; [exact Ha | reflexivity].
  - cbn [globals stdout]. repeat split.
    eapply getattr_property; [cbn [heap]; apply lookup_insert_eq | apply lookup_insert_eq].
Qed.

Lemma stored_name_writable_witness :
  exists s' s'',
    setattr (call recorded_env 2) (VInstance 1%positive) "_name" (VStr "Bob") alice_state
      = (Ok tt, s') /\
    globals s' = globals alice_state /\ stdout s' = stdout alice_state /\
    getattr (call recorded_env 2) (VInstance 1%positive) "name" s' = (Ok (VStr "Bob"), s'').
Proof.
  apply (stored_name_writable recorded_env _ 1 1%positive {[ "_name" := VStr "Alice" ]}).
  vm_compute. reflexivity.
Defined.

(** X7. [Person] takes exactly one argument: called with none, or with two
    or more, it raises [TypeError], and neither the globals nor standard
    output change. *)
Theorem Person_takes_one_argument env d args s :
  length args <> 1 ->
  fst (call env (S (S d)) Person_class args s) = Raise TypeError /\
  globals (snd (call env (S (S d)) Person_class args s)) = globals s /\
  stdout (snd (call env (S (S d)) Person_class args s)) = stdout s.
Proof.
  intros Hlen. rewrite call_S. unfold Person_class at 2 4 6. reduce.
  rewrite Person_lookup_init. rewrite call_S. reduce.
  destruct args as [|x [|y rest]]; [| done |]; by repeat split.
Qed.

Lemma Person_takes_one_argument_witness :
  fst (call recorded_env 2 Person_class [] initial_state) = Raise TypeError /\
  globals (snd (call recorded_env 2 Person_class [] initial_state)) = globals initial_state /\
  stdout (snd (call recorded_env 2 Person_class [] initial_state)) = stdout initial_state.
Proof.
  apply (Person_takes_one_argument recorded_env 0 [] initial_state). discriminate.
Defined.

(** X8. What a run prints is the concatenation, in the order of execution,
    of one fixed text per cell: the two lines of the second cell, "Alice"
    for the third, and for the first the signature text and a newline
    whenever the library can be imported. *)
Theorem run_output_concatenates env :
  exists out : cell -> string,
    out Cell2 = ("This is public" +:+ newline) +:+ ("This is private" +:+ newline) /\
    out Cell3 = "Alice" +:+ newline /\
    (forall ns q t,
       site_packages env !! "sklearn.model_selection" = Some ns ->
       ns !! "cross_validate" = Some (VLib q) ->
       lib_signature env q = Some t ->
       out Cell1 = t +:+ newline) /\
    forall cs,
      stdout (run_cells env cs initial_state) = foldr (fun c acc => out c +:+ acc) "" cs.
Proof.
  destruct (cell_effect env Cell1) as (r1 & out1 & H1).
  set (out := fun c => match c with
                   | Cell1 => out1
                   | Cell2 => ("This is public" +:+ newline) +:+ ("This is private" +:+ newline)
                   | Cell3 => "Alice" +:+ newline
                   end).
  assert (forall c s, unshadowed s ->
            stdout (snd (run_cell env c s)) = stdout s +:+ out c) as Hstep.
  { intros c s Hs. destruct c.
    - destruct (H1 s Hs) as (g' & h' & cl & -> & _). reflexivity.
    - rewrite cell_2_spec by apply Hs. reflexivity.
    - rewrite cell_3_spec by exact Hs. reflexivity. }
  exists out.
  split; [reflexivity|]. split; [reflexivity|]. split.
  - intros ns q t Hm Hq Ht.
    pose proof (Hstep Cell1 initial_state initial_unshadowed) as Hout.
    rewrite (cell_1_spec env ns q t) in Hout by (assumption || reflexivity).
    exact (eq_sym Hout).
  - intros cs.
    enough (forall s, unshadowed s ->
              stdout (run_cells env cs s)
              = stdout s +:+ foldr (fun c acc => out c +:+ acc) "" cs) as Hgen
      by apply (Hgen initial_state initial_unshadowed).
    induction cs as [|c cs IH]; intros s Hs.
    + cbn [run_cells foldr]. by rewrite append_empty_r.
    + cbn [run_cells foldr]. rewrite IH by (by apply run_cell_unshadowed).
      rewrite (Hstep c s Hs). apply append_assoc.
Qed.

(** X9. The order in which two cells are run does not matter for what
    they leave behind: from any state in which the builtins are visible,
    running two cells in either order gives the same globals and the same
    heap. *)
Theorem cells_commute env c1 c2 s :
  unshadowed s ->
  globals (run_cells env [c1; c2] s) = globals (run_cells env [c2; c1] s) /\
  heap (run_cells env [c1; c2] s) = heap (run_cells env [c2; c1] s).
Proof.
  intros Hs. destruct (decide (c1 = c2)) as [->|Hne]; [by split|].
  cbn [run_cells].
  destruct (cell_store_effect env c1) as (w1 & H1 & Hw1 & Hc1 & E1).
  destruct (cell_store_effect env c2) as (w2 & H2 & Hw2 & Hc2 & E2).
  pose proof (run_cell_unshadowed env c1 s Hs) as Hs1.
  pose proof (run_cell_unshadowed env c2 s Hs) as Hs2.
  destruct (E1 s Hs) as [Eh1 Eg1]. destruct (E2 s Hs) as [Eh2 Eg2].
  destruct (E2 _ Hs1) as [Eh12 Eg12]. destruct (E1 _ Hs2) as [Eh21 Eg21].
  assert (w2 (heap (snd (run_cell env c1 s))) = w2 (heap s) /\
          w1 (heap (snd (run_cell env c2 s))) = w1 (heap s) /\
          H2 (H1 (heap s)) = H1 (H2 (heap s))) as (W2 & W1 & HH).
  { destruct (decide (c1 = Cell3)) as [->|N1].
    - assert (c2 <> Cell3) as N2 by congruence.
      rewrite Eh2. destruct (Hc2 N2 (heap s) (heap s)) as [_ ->].
      repeat split.
      + apply (Hc2 N2).
      + by destruct (Hc2 N2 (H1 (heap s)) (heap s)) as [_ ->].
    - rewrite Eh1. destruct (Hc1 N1 (heap s) (heap s)) as [_ ->].
      repeat split.
      + apply (Hc1 N1).
      + by destruct (Hc1 N1 (H2 (heap s)) (heap s)) as [_ ->]. }
  split.
  - apply map_eq. intros n. rewrite Eg12, Eg21, W2, W1, Eg1, Eg2.
    destruct (w1 (heap s) !! n) as [x|] eqn:X1;
      destruct (w2 (heap s) !! n) as [y|] eqn:X2; try reflexivity.
    exfalso. destruct (decide (n ∈ binds c1)) as [Hn|Hn].
    + rewrite Hw2 in X2; [discriminate|]. by apply (binds_disjoint c1).
    + rewrite Hw1 in X1; [discriminate | exact Hn].
  - by rewrite Eh12, Eh21, Eh1, Eh2.
Qed.

Lemma cells_commute_witness :
  globals (run_cells recorded_env [Cell1; Cell3] alice_state)
    = globals (run_cells recorded_env [Cell3; Cell1] alice_state) /\
  heap (run_cells recorded_env [Cell1; Cell3] alice_state)
    = heap (run_cells recorded_env [Cell3; Cell1] alice_state).
Proof.
  apply (cells_commute recorded_env Cell1 Cell3 alice_state).
  split; vm_compute; reflexivity.
Defined.

(** X10. No run of cells modifies an instance that exists: an instance
    found in the heap before any sequence of cells is found there after
    it with the same class and the same attributes.  (The heap here never
    frees an instance; one that is no longer referenced stays.) *)
Theorem runs_keep_instances env cs :
  forall s a inst,
    unshadowed s -> heap s !! a = Some inst ->
    heap (run_cells env cs s) !! a = Some inst.
Proof.
  induction cs as [|c cs IH]; intros s a inst Hs Ha; [exact Ha|].
  cbn [run_cells]. apply IH.
  - by apply run_cell_unshadowed.
  - by apply cell_heap_keeps.
Qed.

Lemma runs_keep_instances_witness :
  heap (run_cells recorded_env [Cell3; Cell1; Cell3; Cell2] alice_state) !! 1%positive
  = Some (Instance Person_class {[ "_name" := VStr "Alice" ]}).
Proof.
  apply (runs_keep_instances recorded_env [Cell3; Cell1; Cell3; Cell2] alice_state).
  - split; vm_compute; reflexivity.
  - vm_compute. reflexivity.
Defined.
